(** * Embedding of the auth core of nestjs-jwt-auth

    Sources: src/auth/auth.service.ts (AuthService), src/auth/jwt.strategy.ts
    (JwtStrategy.validate), src/auth/jwt-auth.guard.ts (JwtAuthGuard) and
    src/auth/auth.controller.ts (AuthController.logout).

    The service is written against the Prisma client it is injected with;
    here that client is the type class [Prisma] (the three calls the service
    makes on [prisma.user]), and [MemDb] is an in-memory instance of it with
    the unique constraint on [email].  bcrypt and the JWT codec are
    collaborators: they are Section variables. *)

From Stdlib Require Import String Ascii Bool List Arith Lia.
Import ListNotations.
Open Scope string_scope.

(** ** Strings: JS truthiness, [toLowerCase], the e-mail regex *)

Definition ascii_lower (c : ascii) : ascii :=
  let n := nat_of_ascii c in
  if Nat.leb 65 n && Nat.leb n 90 then ascii_of_nat (n + 32) else c.

(** [String.prototype.toLowerCase] on ASCII strings. *)
Fixpoint toLowerCase (s : string) : string :=
  match s with
  | EmptyString => EmptyString
  | String c r => String (ascii_lower c) (toLowerCase r)
  end.

(** A JS string is falsy exactly when it is empty. *)
Definition str_truthy (s : string) : bool :=
  match s with EmptyString => false | _ => true end.

(** A field of a request body: [None] is [undefined]. *)
Definition opt_truthy (o : option string) : bool :=
  match o with Some s => str_truthy s | None => false end.

(** The string a present body field holds ([""] for [undefined]). *)
Definition or_empty (o : option string) : string :=
  match o with Some s => s | None => "" end.

(** [\s] restricted to ASCII: space, \t, \n, \v, \f, \r. *)
Definition is_space (c : ascii) : bool :=
  let n := nat_of_ascii c in Nat.eqb n 32 || (Nat.leb 9 n && Nat.leb n 13).

(** Characters of the class [[^\s@]]. *)
Definition plain (c : ascii) : bool :=
  negb (is_space c) && negb (Ascii.eqb c "@"%char).

Fixpoint all_plain (s : string) : bool :=
  match s with
  | EmptyString => true
  | String c r => plain c && all_plain r
  end.

(** Split at the first occurrence of [c]. *)
Fixpoint split_first (c : ascii) (s : string) : option (string * string) :=
  match s with
  | EmptyString => None
  | String d r =>
      if Ascii.eqb d c then Some (EmptyString, r)
      else match split_first c r with
           | Some (a, b) => Some (String d a, b)
           | None => None
           end
  end.

(** A ['.'] followed by at least one character. *)
Fixpoint dot_not_last (s : string) : bool :=
  match s with
  | String "." (String _ _) => true
  | String _ r => dot_not_last r
  | EmptyString => false
  end.

(** [/^[^\s@]+@[^\s@]+\.[^\s@]+$/.test(s)]: the local part is the text
    before the first ['@'] (it cannot contain one), it is non-empty and
    plain; the rest is plain and has a ['.'] with at least one character on
    each side of it. *)
Definition emailRegex_test (s : string) : bool :=
  match split_first "@" s with
  | None => false
  | Some (local, dom) =>
      str_truthy local && all_plain local && all_plain dom &&
      match dom with
      | EmptyString => false
      | String _ r => dot_not_last r
      end
  end.

(** ** Data *)

(** A row of the [User] table (fields as the service uses them). *)
Record User := mkUser {
  id : nat;
  email : string;
  password : string;
  currentToken : option string;
  createdAt : nat
}.

Definition with_token (u : User) (t : option string) : User :=
  mkUser u.(id) u.(email) u.(password) t u.(createdAt).

Record RegisterDto := mkRegisterDto {
  dto_email : option string;
  dto_password : option string
}.

Record AuthResponse := mkAuthResponse { access_token : string }.

Record JwtPayload := mkJwtPayload { sub : nat; jwt_email : string }.

Record ValidatedUser := mkValidatedUser { userId : nat; v_email : string }.

Record Message := mkMessage { message : string }.

(** JS values and objects, for what [register] returns. *)
Inductive JsVal := JNum (n : nat) | JStr (s : string) | JNull.

Definition JsObject := list (string * JsVal).

(** The object Prisma returns for a row. *)
Definition user_to_obj (u : User) : JsObject :=
  [("id", JNum u.(id)); ("email", JStr u.(email)); ("password", JStr u.(password));
   ("currentToken", match u.(currentToken) with Some t => JStr t | None => JNull end);
   ("createdAt", JNum u.(createdAt))].

(** [const { password, ...safeUser } = user; return safeUser;] *)
Definition sanitizeUser (user : JsObject) : JsObject :=
  filter (fun kv => negb (String.eqb (fst kv) "password")) user.

(** Thrown values: the NestJS exceptions and Prisma's known request errors
    (carrying their code). *)
Inductive Exn :=
| BadRequestException (msg : string)
| UnauthorizedException (msg : string)
| ForbiddenException (msg : string)
| ConflictException (msg : string)
| PrismaError (code : string).

(** ** A state and exception monad for async code that may throw *)

Inductive result (A : Type) := Ok (a : A) | Throw (e : Exn).
Arguments Ok {A} a.
Arguments Throw {A} e.

Definition M (S A : Type) := S -> result A * S.

Definition ret {S A} (a : A) : M S A := fun s => (Ok a, s).
Definition throw {S A} (e : Exn) : M S A := fun s => (Throw e, s).
Definition bind {S A B} (m : M S A) (k : A -> M S B) : M S B :=
  fun s => match m s with
           | (Ok a, s') => k a s'
           | (Throw e, s') => (Throw e, s')
           end.
(** [try { m } catch (error) { h(error) }] *)
Definition try_catch {S A} (m : M S A) (h : Exn -> M S A) : M S A :=
  fun s => match m s with
           | (Throw e, s') => h e s'
           | r => r
           end.

Notation "x <- m ;; k" := (bind m (fun x => k))
  (at level 61, m at next level, right associativity).
Notation "m ;;; k" := (bind m (fun _ => k)) (at level 61, right associativity).

(** ** The Prisma client, as the service uses it *)

Class Prisma (S : Type) := {
  (** [prisma.user.create({ data: { email, password } })] *)
  user_create : string -> string -> M S User;
  (** [prisma.user.findUnique({ where: { email } })] *)
  user_findUnique : string -> M S (option User);
  (** [prisma.user.update({ where: { id }, data: { currentToken } })] *)
  user_update_by_id : nat -> option string -> M S User;
  (** [prisma.user.update({ where: { email }, data: { currentToken } })] *)
  user_update_by_email : string -> option string -> M S User
}.

(** ** An in-memory database with [email @unique] *)

Module MemDb.

Record Db := mkDb { users : list User; next_id : nat; clock : nat }.

Definition find_email (e : string) (l : list User) : option User :=
  find (fun u => String.eqb u.(email) e) l.

Definition find_id (i : nat) (l : list User) : option User :=
  find (fun u => Nat.eqb u.(id) i) l.

Definition set_token_id (i : nat) (t : option string) (u : User) : User :=
  if Nat.eqb u.(id) i then with_token u t else u.

Definition set_token_email (e : string) (t : option string) (u : User) : User :=
  if String.eqb u.(email) e then with_token u t else u.

Definition create (e pw : string) : M Db User := fun s =>
  match find_email e s.(users) with
  | Some _ => (Throw (PrismaError "P2002"), s)
  | None =>
      let u := mkUser s.(next_id) e pw None s.(clock) in
      (Ok u, mkDb (s.(users) ++ [u]) (S s.(next_id)) s.(clock))
  end.

Definition findUnique (e : string) : M Db (option User) := fun s =>
  (Ok (find_email e s.(users)), s).

Definition update_by_id (i : nat) (t : option string) : M Db User := fun s =>
  match find_id i s.(users) with
  | None => (Throw (PrismaError "P2025"), s)
  | Some u =>
      (Ok (with_token u t),
       mkDb (map (set_token_id i t) s.(users)) s.(next_id) s.(clock))
  end.

Definition update_by_email (e : string) (t : option string) : M Db User := fun s =>
  match find_email e s.(users) with
  | None => (Throw (PrismaError "P2025"), s)
  | Some u =>
      (Ok (with_token u t),
       mkDb (map (set_token_email e t) s.(users)) s.(next_id) s.(clock))
  end.

#[global] Instance MemPrisma : Prisma Db := {
  user_create := create;
  user_findUnique := findUnique;
  user_update_by_id := update_by_id;
  user_update_by_email := update_by_email
}.

Definition empty : Db := mkDb [] 1 0.

End MemDb.

(** ** AuthService, JwtStrategy, JwtAuthGuard and AuthController.logout *)

Section Auth.

(** [bcrypt.hash(password, rounds)] and [bcrypt.compare(password, hash)]. *)
Variable bcrypt_hash : string -> nat -> string.
Variable bcrypt_compare : string -> string -> bool.
(** [this.jwt.sign(payload)], with the configured secret and expiry. *)
Variable jwt_sign : JwtPayload -> string.
(** passport-jwt's check of a bearer token: signature against the secret and
    [exp] against the clock ([ignoreExpiration: false]); [Some payload] when
    both pass. *)
Variable jwt_verify : string -> option JwtPayload.

Context {S : Type} `{Prisma S}.

Definition SALT_ROUNDS : nat := 10.

(** [AuthService.validateInput] *)
Definition validateInput (data : RegisterDto) : M S unit :=
  if negb (opt_truthy data.(dto_email)) || negb (opt_truthy data.(dto_password)) then
    throw (BadRequestException "Email and password are required")
  else if Nat.ltb (String.length (or_empty data.(dto_password))) 6 then
    throw (BadRequestException "Password must be at least 6 characters")
  else if negb (emailRegex_test (or_empty data.(dto_email))) then
    throw (BadRequestException "Invalid email format")
  else ret tt.

(** [AuthService.handlePrismaError] *)
Definition handlePrismaError {A} (error : Exn) : M S A :=
  match error with
  | PrismaError code =>
      if String.eqb code "P2002" then
        throw (ConflictException
                 "Email is already registered. Please use a different email.")
      else throw error
  | _ => throw error
  end.

(** [AuthService.register] *)
Definition register (data : RegisterDto) : M S JsObject :=
  validateInput data ;;;
  let hashedPassword := bcrypt_hash (or_empty data.(dto_password)) SALT_ROUNDS in
  try_catch
    (user <- user_create (toLowerCase (or_empty data.(dto_email))) hashedPassword ;;
     ret (sanitizeUser (user_to_obj user)))
    handlePrismaError.

(** [AuthService.validateUser] *)
Definition validateUser (e pw : string) : M S (option User) :=
  user <- user_findUnique (toLowerCase e) ;;
  match user with
  | None => ret None
  | Some u =>
      let isPasswordValid := bcrypt_compare pw u.(password) in
      ret (if isPasswordValid then Some u else None)
  end.

(** [AuthService.login] *)
Definition login (e pw : string) : M S AuthResponse :=
  user <- validateUser e pw ;;
  match user with
  | None => throw (UnauthorizedException "Invalid email or password")
  | Some u =>
      let payload := mkJwtPayload u.(id) u.(email) in
      let token := jwt_sign payload in
      user_update_by_id u.(id) (Some token) ;;;
      ret (mkAuthResponse token)
  end.

(** [AuthService.logout]; its result type is [boolean | null]. *)
Definition logout (e loggedInUserEmail : string) : M S (option bool) :=
  if negb (str_truthy e) then throw (BadRequestException "Email is required")
  else
    user <- user_findUnique e ;;
    match user with
    | None => throw (BadRequestException "Enter a valid email.")
    | Some _ =>
        if negb (String.eqb e loggedInUserEmail) then
          throw (ForbiddenException "You can only logout your own account.")
        else
          user_update_by_email e None ;;;
          ret (Some true)
    end.

(** [JwtStrategy.validate] *)
Definition validate (payload : JwtPayload) : ValidatedUser :=
  mkValidatedUser payload.(sub) payload.(jwt_email).

(** [JwtAuthGuard] (passport's [AuthGuard('jwt')]): the bearer token taken
    from the [Authorization] header ([None] when absent or malformed), checked,
    and [req.user] set to the strategy's result. *)
Definition jwtAuthGuard (bearer : option string) : M S ValidatedUser :=
  match bearer with
  | None => throw (UnauthorizedException "Unauthorized")
  | Some t =>
      match jwt_verify t with
      | None => throw (UnauthorizedException "Unauthorized")
      | Some payload => ret (validate payload)
      end
  end.

(** [AuthController.profile] behind the guard: returns [req.user]. *)
Definition profile (bearer : option string) : M S ValidatedUser :=
  user <- jwtAuthGuard bearer ;; ret user.

Definition bool_truthy (r : option bool) : bool :=
  match r with Some true => true | _ => false end.

(** [AuthController.logout], given the body's [email] and [req.user]. *)
Definition controller_logout (body_email : option string)
    (req_user : option ValidatedUser) : M S Message :=
  if negb (opt_truthy body_email) then ret (mkMessage "Email is required to logout")
  else
    let e := or_empty body_email in
    let loggedInUserEmail := option_map v_email req_user in
    if negb (opt_truthy loggedInUserEmail) then
      ret (mkMessage "Unable to extract logged-in user email from token")
    else
      result <- logout e (or_empty loggedInUserEmail) ;;
      ret (if bool_truthy result
           then mkMessage ("User with email " ++ e ++ " logged out successfully")
           else mkMessage ("No user found with email " ++ e)).

End Auth.

(** ** Concrete collaborators and stores for the examples *)

(** A bcrypt stand-in: the "hash" is the password itself. *)
Definition hash_ex (pw : string) (rounds : nat) : string := pw.

Definition cmp_ex (pw hash : string) : bool := String.eqb pw hash.

Definition store_ex : MemDb.Db :=
  MemDb.mkDb [mkUser 1 "user@example.com" "secret12" None 0] 2 0.

(** Two rows, both holding a session token. *)
Definition store_two : MemDb.Db :=
  MemDb.mkDb [mkUser 1 "a@example.com" "pa" (Some "ta") 0;
              mkUser 2 "b@example.com" "pb" (Some "tb") 0] 3 0.

(** [store_two] after ["a@example.com"] logged out. *)
Definition store_two_a_out : MemDb.Db :=
  MemDb.mkDb [mkUser 1 "a@example.com" "pa" None 0;
              mkUser 2 "b@example.com" "pb" (Some "tb") 0] 3 0.

(** A token codec stand-in: [sub] in unary, then ['|'], then the email. *)
Fixpoint enc_ex (n : nat) (e : string) : string :=
  match n with
  | O => String "|" e
  | S k => String "x" (enc_ex k e)
  end.

Definition sign_ex (p : JwtPayload) : string := enc_ex p.(sub) p.(jwt_email).

Fixpoint decode_ex (t : string) : option JwtPayload :=
  match t with
  | String "|" e => Some (mkJwtPayload 0 e)
  | String "x" r =>
      option_map (fun p => mkJwtPayload (S p.(sub)) p.(jwt_email)) (decode_ex r)
  | _ => None
  end.

Definition verify_ex (t : string) : option JwtPayload :=
  if String.eqb t "tok" then Some (mkJwtPayload 1 "user@example.com") else None.

(** A Prisma client whose database refuses writes: reads go to the wrapped
    store, [create] and [update] fail with Prisma's P1001. *)
Module ReadOnlyDb.

Record RoDb := mkRoDb { base : MemDb.Db }.

#[global] Instance RoPrisma : Prisma RoDb := {
  user_create := fun _ _ => throw (PrismaError "P1001");
  user_findUnique := fun e s => (Ok (MemDb.find_email e (MemDb.users s.(base))), s);
  user_update_by_id := fun _ _ => throw (PrismaError "P1001");
  user_update_by_email := fun _ _ => throw (PrismaError "P1001")
}.

End ReadOnlyDb.

(** The e-mail shape in the words of the spec: an ['@'], at least one ['.']
    after it, no whitespace. *)
Fixpoint has_space (s : string) : bool :=
  match s with
  | EmptyString => false
  | String c r => is_space c || has_space r
  end.

Fixpoint has_dot (s : string) : bool :=
  match s with
  | EmptyString => false
  | String c r => Ascii.eqb c "."%char || has_dot r
  end.

Definition spec_email_shape (s : string) : bool :=
  negb (has_space s) &&
  match split_first "@" s with
  | Some (_, after) => has_dot after
  | None => false
  end.

(** Well-formed in-memory stores: the unique constraint on [email], emails
    stored lower-cased, and [id]s distinct and below the id counter. *)
Definition wf (s : MemDb.Db) : Prop :=
  NoDup (map email (MemDb.users s)) /\
  Forall (fun u => toLowerCase u.(email) = u.(email)) (MemDb.users s) /\
  NoDup (map id (MemDb.users s)) /\
  Forall (fun u => (u.(id) < MemDb.next_id s)%nat) (MemDb.users s).

(** ** Helper lemmas *)

Lemma toLowerCase_example : toLowerCase "User@Example.com" = "user@example.com".
Proof. reflexivity. Qed.

(** Every normal return of [logout] is [true], for any Prisma client. *)
Lemma logout_result_true {S} `{Prisma S} (e c : string) (s : S) r s' :
  logout e c s = (Ok r, s') -> r = Some true.
Proof.
  unfold logout, bind, ret, throw.
  destruct (negb (str_truthy e)); [discriminate|].
  destruct (user_findUnique e s) as [[u|x] s1]; [|discriminate].
  destruct u as [u|]; [|discriminate].
  destruct (negb (String.eqb e c)); [discriminate|].
  destruct (user_update_by_email e None s1) as [[v|x] s2]; [|discriminate].
  congruence.
Qed.

Lemma decode_sign_ex (p : JwtPayload) : decode_ex (sign_ex p) = Some p.
Proof.
  destruct p as [n e]; unfold sign_ex; simpl.
  induction n as [|n IH]; [reflexivity|]. simpl. rewrite IH. reflexivity.
Qed.

Lemma find_id_in (l : list User) (u : User) :
  In u l -> exists v, MemDb.find_id u.(id) l = Some v.
Proof.
  intros Hin. unfold MemDb.find_id.
  destruct (find (fun v => Nat.eqb (id v) (id u)) l) as [v|] eqn:F; [eauto|].
  pose proof (find_none _ _ F u Hin) as C. simpl in C.
  rewrite Nat.eqb_refl in C. discriminate.
Qed.

(** ** Claims *)

(** C1 (email normalisation).  [register] and [validateUser] lower-case the
    email before creating or looking up the row, but [logout] looks the row up
    with the target email as given and compares it as given: after
    registering ["User@Example.com"] (stored as ["user@example.com"]), a
    logout of ["User@Example.com"] by its owner fails with "Enter a valid
    email.", while the lower-cased target succeeds. *)
Theorem C1_logout_does_not_normalise (bcrypt_hash : string -> nat -> string) :
  let s := snd (register bcrypt_hash
                  (mkRegisterDto (Some "User@Example.com") (Some "secret12"))
                  MemDb.empty) in
  map email (MemDb.users s) = ["user@example.com"] /\
  fst (logout "User@Example.com" "user@example.com" s)
    = Throw (BadRequestException "Enter a valid email.") /\
  fst (logout (toLowerCase "User@Example.com") "user@example.com" s)
    = Ok (Some true).
Proof. repeat split; reflexivity. Qed.

(** C3 (what [register] returns).  [sanitizeUser] removes only [password]:
    a successful registration returns the row's [id], [email],
    [currentToken] (null) and [createdAt], so the [currentToken] field is
    present in the result. *)
Theorem C3_register_returns_currentToken (bcrypt_hash : string -> nat -> string) :
  fst (register bcrypt_hash
         (mkRegisterDto (Some "user@example.com") (Some "secret12")) MemDb.empty)
  = Ok [("id", JNum 1); ("email", JStr "user@example.com");
        ("currentToken", JNull); ("createdAt", JNum 0)].
Proof. reflexivity. Qed.

(** C10: for every Prisma client, store, target and caller, a [logout] that
    returns normally returns [true]; so [AuthController.logout] never answers
    with its "No user found with email ..." message. *)
Theorem C10_logout_true_fallback_unreachable {S} `{Prisma S} :
  (forall (e loggedIn : string) (s : S),
     match fst (logout e loggedIn s) with
     | Ok r => r = Some true
     | Throw _ => True
     end) /\
  (forall (body_email : option string) (req_user : option ValidatedUser) (s : S),
     match fst (controller_logout body_email req_user s) with
     | Ok m => String.prefix "No user found with email " m.(message) = false
     | Throw _ => True
     end).
Proof.
  split.
  - intros e c s. destruct (logout e c s) as [[r|x] s1] eqn:E; simpl; [|exact I].
    exact (logout_result_true e c s r s1 E).
  - intros b ru s. unfold controller_logout.
    destruct (negb (opt_truthy b)); [reflexivity|].
    destruct (negb (opt_truthy (option_map v_email ru))); [reflexivity|].
    unfold bind at 1.
    destruct (logout (or_empty b) (or_empty (option_map v_email ru)) s)
      as [[r|x] s1] eqn:E; [|exact I].
    rewrite (logout_result_true _ _ _ _ _ E). reflexivity.
Qed.

(** The outcome of [logout] on the in-memory store, for every target and
    caller. *)
Lemma logout_outcome (s : MemDb.Db) (e loggedIn : string) :
  fst (logout e loggedIn s) =
    if negb (str_truthy e) then Throw (BadRequestException "Email is required")
    else match MemDb.find_email e (MemDb.users s) with
         | None => Throw (BadRequestException "Enter a valid email.")
         | Some _ =>
             if String.eqb e loggedIn then Ok (Some true)
             else Throw (ForbiddenException "You can only logout your own account.")
         end.
Proof.
  unfold logout, bind, ret, throw.
  destruct (negb (str_truthy e)); [reflexivity|].
  simpl. unfold MemDb.findUnique.
  destruct (MemDb.find_email e (MemDb.users s)) as [u|] eqn:F; [|reflexivity].
  destruct (String.eqb e loggedIn); simpl; [|reflexivity].
  unfold MemDb.update_by_email. rewrite F. reflexivity.
Qed.

(** C2: for every store and caller, and every target email that is present
    (the controller forwards only those): if no row has the target email,
    logout fails with BadRequest "Enter a valid email.", whoever the caller
    is; otherwise, if the target differs from the caller's email, it fails
    with Forbidden.  The row lookup comes before the ownership check. *)
Theorem C2_logout_existence_then_ownership (s : MemDb.Db) (e loggedIn : string)
    (Hpresent : e <> "") :
  (MemDb.find_email e (MemDb.users s) = None ->
   fst (logout e loggedIn s) = Throw (BadRequestException "Enter a valid email.")) /\
  (MemDb.find_email e (MemDb.users s) <> None -> e <> loggedIn ->
   fst (logout e loggedIn s)
     = Throw (ForbiddenException "You can only logout your own account.")).
Proof.
  rewrite logout_outcome.
  assert (T : str_truthy e = true) by (destruct e; [contradiction|reflexivity]).
  rewrite T; simpl. split.
  - intros ->. reflexivity.
  - intros F Hne. destruct (MemDb.find_email e (MemDb.users s)); [|contradiction].
    destruct (String.eqb e loggedIn) eqn:E; [|reflexivity].
    apply String.eqb_eq in E; contradiction.
Qed.

Lemma C2_witness :
  "c@example.com" <> "" /\
  MemDb.find_email "c@example.com" (MemDb.users store_two) = None /\
  fst (logout "c@example.com" "a@example.com" store_two)
    = Throw (BadRequestException "Enter a valid email.") /\
  "b@example.com" <> "" /\
  MemDb.find_email "b@example.com" (MemDb.users store_two) <> None /\
  "b@example.com" <> "a@example.com" /\
  fst (logout "b@example.com" "a@example.com" store_two)
    = Throw (ForbiddenException "You can only logout your own account.").
Proof.
  assert (N1 : "c@example.com" <> "") by discriminate.
  assert (N2 : "b@example.com" <> "") by discriminate.
  assert (F2 : MemDb.find_email "b@example.com" (MemDb.users store_two) <> None)
    by discriminate.
  assert (D : "b@example.com" <> "a@example.com") by discriminate.
  refine (conj N1 (conj eq_refl (conj _ (conj N2 (conj F2 (conj D _)))))).
  - exact (proj1 (C2_logout_existence_then_ownership store_two "c@example.com"
                    "a@example.com" N1) eq_refl).
  - exact (proj2 (C2_logout_existence_then_ownership store_two "b@example.com"
                    "a@example.com" N2) F2 D).
Defined.

(** C4: a login with an email whose row exists but a wrong password, and a
    login with an email that has no row, both fail with the same
    Unauthorized "Invalid email or password" and leave the store as it was. *)
Theorem C4_login_failures_identical
    (bcrypt_compare : string -> string -> bool) (jwt_sign : JwtPayload -> string)
    (s1 s2 : MemDb.Db) (e1 pw1 e2 pw2 : string) (u : User)
    (Hrow : MemDb.find_email (toLowerCase e1) (MemDb.users s1) = Some u)
    (Hwrong : bcrypt_compare pw1 u.(password) = false)
    (Hnone : MemDb.find_email (toLowerCase e2) (MemDb.users s2) = None) :
  login bcrypt_compare jwt_sign e1 pw1 s1
    = (Throw (UnauthorizedException "Invalid email or password"), s1) /\
  login bcrypt_compare jwt_sign e2 pw2 s2
    = (Throw (UnauthorizedException "Invalid email or password"), s2).
Proof.
  unfold login, validateUser, bind, ret, throw; simpl; unfold MemDb.findUnique.
  rewrite Hrow, Hnone, Hwrong. split; reflexivity.
Qed.

Lemma C4_witness :
  MemDb.find_email (toLowerCase "User@Example.com") (MemDb.users store_ex)
    = Some (mkUser 1 "user@example.com" "secret12" None 0) /\
  cmp_ex "wrong-pass" "secret12" = false /\
  MemDb.find_email (toLowerCase "nobody@example.com") (MemDb.users store_ex) = None /\
  login cmp_ex jwt_email "User@Example.com" "wrong-pass" store_ex
    = (Throw (UnauthorizedException "Invalid email or password"), store_ex) /\
  login cmp_ex jwt_email "nobody@example.com" "secret12" store_ex
    = (Throw (UnauthorizedException "Invalid email or password"), store_ex).
Proof.
  refine (conj eq_refl (conj eq_refl (conj eq_refl _))).
  exact (C4_login_failures_identical cmp_ex jwt_email store_ex store_ex
           "User@Example.com" "wrong-pass" "nobody@example.com" "secret12"
           (mkUser 1 "user@example.com" "secret12" None 0) eq_refl eq_refl eq_refl).
Defined.

(** C7: the guard reads only the bearer token.  Its outcome is the same in
    any two stores, and a token that passes the signature and expiry check is
    accepted with [{userId: payload.sub, email: payload.email}] and the store
    untouched, whatever [currentToken] holds. *)
Theorem C7_guard_ignores_store (jwt_verify : string -> option JwtPayload)
    {S} `{Prisma S} (s1 s2 : S) (t : string) (p : JwtPayload)
    (Hvalid : jwt_verify t = Some p) :
  (forall bearer, fst (jwtAuthGuard jwt_verify bearer s1)
                  = fst (jwtAuthGuard jwt_verify bearer s2)) /\
  profile jwt_verify (Some t) s1 = (Ok (mkValidatedUser p.(sub) p.(jwt_email)), s1) /\
  profile jwt_verify (Some t) s2 = (Ok (mkValidatedUser p.(sub) p.(jwt_email)), s2).
Proof.
  split.
  - intros [b|]; simpl; [destruct (jwt_verify b)|]; reflexivity.
  - unfold profile, jwtAuthGuard, bind, ret; rewrite Hvalid. split; reflexivity.
Qed.

Lemma C7_witness :
  let before := MemDb.mkDb [mkUser 1 "user@example.com" "secret12" (Some "tok") 0] 2 0 in
  let after := snd (logout "user@example.com" "user@example.com" before) in
  verify_ex "tok" = Some (mkJwtPayload 1 "user@example.com") /\
  MemDb.users after = [mkUser 1 "user@example.com" "secret12" None 0] /\
  fst (profile verify_ex (Some "tok") before)
    = fst (profile verify_ex (Some "tok") after).
Proof.
  intros before after.
  refine (conj eq_refl (conj eq_refl _)).
  destruct (C7_guard_ignores_store verify_ex before after "tok"
              (mkJwtPayload 1 "user@example.com") eq_refl) as [_ [E1 E2]].
  rewrite E1, E2. reflexivity.
Defined.

(** ** Lemmas on the in-memory store *)

Lemma find_email_spec (e : string) (l : list User) (u : User) :
  MemDb.find_email e l = Some u -> In u l /\ u.(email) = e.
Proof.
  unfold MemDb.find_email. intros F. apply find_some in F as [Hin Heq].
  split; [exact Hin | apply String.eqb_eq; exact Heq].
Qed.

Lemma find_email_set_token (e e' : string) (t : option string) (l : list User) :
  MemDb.find_email e (map (MemDb.set_token_email e' t) l)
  = option_map (MemDb.set_token_email e' t) (MemDb.find_email e l).
Proof.
  unfold MemDb.find_email. induction l as [|v l IH]; [reflexivity|].
  simpl. unfold MemDb.set_token_email at 1.
  destruct (String.eqb (email v) e') eqn:E1; simpl;
    destruct (String.eqb (email v) e) eqn:E2; simpl; try reflexivity; exact IH.
Qed.

Lemma set_token_email_idem (e : string) (t : option string) (u : User) :
  MemDb.set_token_email e t (MemDb.set_token_email e t u) = MemDb.set_token_email e t u.
Proof.
  unfold MemDb.set_token_email.
  destruct (String.eqb (email u) e) eqn:E; simpl; rewrite ?E; reflexivity.
Qed.

(** A successful [logout] on the in-memory store: what it found and wrote. *)
Lemma logout_ok_inv (s s' : MemDb.Db) (e c : string) r :
  logout e c s = (Ok r, s') ->
  exists u, MemDb.find_email e (MemDb.users s) = Some u /\ e = c /\
    s' = MemDb.mkDb (map (MemDb.set_token_email e None) (MemDb.users s))
                    (MemDb.next_id s) (MemDb.clock s).
Proof.
  unfold logout, bind, ret, throw.
  destruct (negb (str_truthy e)); [discriminate|].
  simpl; unfold MemDb.findUnique.
  destruct (MemDb.find_email e (MemDb.users s)) as [u|] eqn:F; [|discriminate].
  destruct (String.eqb e c) eqn:Ec; simpl; [|discriminate].
  unfold MemDb.update_by_email; rewrite F. intros Hs; inversion Hs; subst.
  exists u. split; [reflexivity|]. split; [apply String.eqb_eq; exact Ec | reflexivity].
Qed.

(** C8: a successful logout sets [currentToken] to null on the target row,
    keeps its [id], [email], [password] and [createdAt], and leaves every
    other row, their order and the id counter and clock as they were. *)
Theorem C8_logout_frame (s s' : MemDb.Db) (e loggedIn : string) r
    (Hok : logout e loggedIn s = (Ok r, s')) :
  MemDb.next_id s' = MemDb.next_id s /\ MemDb.clock s' = MemDb.clock s /\
  length (MemDb.users s') = length (MemDb.users s) /\
  (exists u, MemDb.find_email e (MemDb.users s) = Some u /\
             In (mkUser u.(id) u.(email) u.(password) None u.(createdAt))
                (MemDb.users s')) /\
  (forall i v, nth_error (MemDb.users s) i = Some v ->
     nth_error (MemDb.users s') i =
       Some (if String.eqb v.(email) e
             then mkUser v.(id) v.(email) v.(password) None v.(createdAt)
             else v)).
Proof.
  destruct (logout_ok_inv s s' e loggedIn r Hok) as [u [F [_ ->]]]; simpl.
  split; [reflexivity|]. split; [reflexivity|].
  split; [apply length_map|]. split.
  - exists u. split; [exact F|].
    destruct (find_email_spec e _ u F) as [Hin He].
    replace (mkUser (id u) (email u) (password u) None (createdAt u))
      with (MemDb.set_token_email e None u).
    + apply in_map; exact Hin.
    + unfold MemDb.set_token_email.
      replace (String.eqb (email u) e) with true; [reflexivity|].
      symmetry; apply String.eqb_eq; exact He.
  - intros i v Hv. rewrite nth_error_map, Hv. reflexivity.
Qed.

Lemma C8_witness :
  logout "a@example.com" "a@example.com" store_two = (Ok (Some true), store_two_a_out) /\
  In (mkUser 1 "a@example.com" "pa" None 0) (MemDb.users store_two_a_out) /\
  nth_error (MemDb.users store_two_a_out) 1
    = Some (mkUser 2 "b@example.com" "pb" (Some "tb") 0).
Proof.
  refine (conj eq_refl _).
  destruct (C8_logout_frame store_two store_two_a_out "a@example.com" "a@example.com"
              (Some true) eq_refl) as [_ [_ [_ [[u [Fu Hin] ] Hnth]]]].
  split.
  - simpl in Fu. inversion Fu; subst. exact Hin.
  - exact (Hnth 1 (mkUser 2 "b@example.com" "pb" (Some "tb") 0) eq_refl).
Defined.

(** C9: after a successful logout, the same logout (same target, same
    caller) succeeds again and leaves the store it found. *)
Theorem C9_logout_idempotent (s s1 : MemDb.Db) (e loggedIn : string) r
    (Hok : logout e loggedIn s = (Ok r, s1)) :
  logout e loggedIn s1 = (Ok (Some true), s1).
Proof.
  pose proof Hok as Hok'.
  destruct (logout_ok_inv s s1 e loggedIn r Hok) as [u [F [<- ->]]].
  unfold logout, bind, ret, throw in *.
  destruct (negb (str_truthy e)); [discriminate|].
  simpl; unfold MemDb.findUnique; simpl.
  rewrite find_email_set_token, F, String.eqb_refl; simpl.
  unfold MemDb.update_by_email; simpl.
  rewrite find_email_set_token, F; simpl.
  rewrite map_map.
  erewrite map_ext; [reflexivity|]. intros v; apply set_token_email_idem.
Qed.

Lemma C9_witness :
  logout "a@example.com" "a@example.com" store_two = (Ok (Some true), store_two_a_out) /\
  store_two_a_out <> store_two /\
  logout "a@example.com" "a@example.com" store_two_a_out
    = (Ok (Some true), store_two_a_out).
Proof.
  refine (conj eq_refl (conj _ _)); [discriminate|].
  exact (C9_logout_idempotent store_two store_two_a_out "a@example.com" "a@example.com"
           (Some true) eq_refl).
Defined.

(** C5: a successful login of the row [u] found for [toLowerCase e] signs
    exactly [{sub: u.id, email: u.email}] (so a codec that inverts [sign]
    decodes the token back to them; [u.email] is the lower-cased [e]), writes
    the token into [u]'s [currentToken] (replacing what was there), and
    returns [{access_token: token}]; and for any Prisma client, if that write
    fails, login fails with the same error. *)
Theorem C5_login_issues_token
    (bcrypt_compare : string -> string -> bool) (jwt_sign : JwtPayload -> string)
    (jwt_decode : string -> option JwtPayload)
    (Hcodec : forall p, jwt_decode (jwt_sign p) = Some p)
    (s : MemDb.Db) (e pw : string) (u : User)
    (Hrow : MemDb.find_email (toLowerCase e) (MemDb.users s) = Some u)
    (Hpw : bcrypt_compare pw u.(password) = true) :
  let token := jwt_sign (mkJwtPayload u.(id) u.(email)) in
  let s' := MemDb.mkDb (map (MemDb.set_token_id u.(id) (Some token)) (MemDb.users s))
                       (MemDb.next_id s) (MemDb.clock s) in
  jwt_decode token = Some (mkJwtPayload u.(id) (toLowerCase e)) /\
  login bcrypt_compare jwt_sign e pw s = (Ok (mkAuthResponse token), s') /\
  In (mkUser u.(id) u.(email) u.(password) (Some token) u.(createdAt)) (MemDb.users s') /\
  (forall (S' : Type) (P' : Prisma S') (s0 s1 s2 : S') (v : User) (x : Exn),
     user_findUnique (toLowerCase e) s0 = (Ok (Some v), s1) ->
     bcrypt_compare pw v.(password) = true ->
     user_update_by_id v.(id) (Some (jwt_sign (mkJwtPayload v.(id) v.(email)))) s1
       = (Throw x, s2) ->
     login bcrypt_compare jwt_sign e pw s0 = (Throw x, s2)).
Proof.
  cbv zeta.
  destruct (find_email_spec _ _ _ Hrow) as [Hin He].
  split; [rewrite Hcodec, He; reflexivity|].
  split.
  - unfold login, validateUser, bind, ret; simpl; unfold MemDb.findUnique.
    rewrite Hrow, Hpw. unfold MemDb.update_by_id.
    destruct (find_id_in _ u Hin) as [v Hv]. rewrite Hv. reflexivity.
  - split.
    + simpl. set (token := jwt_sign (mkJwtPayload (id u) (email u))).
      replace (mkUser (id u) (email u) (password u) (Some token) (createdAt u))
        with (MemDb.set_token_id (id u) (Some token) u).
      * apply in_map; exact Hin.
      * unfold MemDb.set_token_id; rewrite Nat.eqb_refl; reflexivity.
    + intros S' P' s0 s1 s2 v x Hf Hc Hu.
      unfold login, validateUser, bind, ret.
      rewrite Hf, Hc. simpl. rewrite Hu. reflexivity.
Qed.

Lemma C5_witness :
  (forall p, decode_ex (sign_ex p) = Some p) /\
  MemDb.find_email (toLowerCase "User@Example.com") (MemDb.users store_ex)
    = Some (mkUser 1 "user@example.com" "secret12" None 0) /\
  cmp_ex "secret12" "secret12" = true /\
  login cmp_ex sign_ex "User@Example.com" "secret12" store_ex
    = (Ok (mkAuthResponse "x|user@example.com"),
       MemDb.mkDb [mkUser 1 "user@example.com" "secret12" (Some "x|user@example.com") 0] 2 0) /\
  login cmp_ex sign_ex "User@Example.com" "secret12" (ReadOnlyDb.mkRoDb store_ex)
    = (Throw (PrismaError "P1001"), ReadOnlyDb.mkRoDb store_ex).
Proof.
  destruct (C5_login_issues_token cmp_ex sign_ex decode_ex decode_sign_ex store_ex
              "User@Example.com" "secret12" (mkUser 1 "user@example.com" "secret12" None 0)
              eq_refl eq_refl) as [_ [Hlogin [_ Hfail]]].
  refine (conj decode_sign_ex (conj eq_refl (conj eq_refl (conj Hlogin _)))).
  apply (Hfail ReadOnlyDb.RoDb ReadOnlyDb.RoPrisma _ (ReadOnlyDb.mkRoDb store_ex) _
           (mkUser 1 "user@example.com" "secret12" None 0)); reflexivity.
Defined.

(** C6 (register outcomes, amended).  [register] fails with BadRequest
    "Email and password are required" when a field is missing or empty, then
    with BadRequest "Password must be at least 6 characters", then with
    BadRequest "Invalid email format" when the email fails
    [/^[^\s@]+@[^\s@]+\.[^\s@]+$/]; past validation it fails with Conflict
    exactly when a row with the lower-cased email exists, and otherwise
    creates the row and returns it without its password. *)
Theorem C6_register_outcomes (bcrypt_hash : string -> nat -> string)
    (s : MemDb.Db) (data : RegisterDto) :
  fst (register bcrypt_hash data s) =
    if negb (opt_truthy data.(dto_email)) || negb (opt_truthy data.(dto_password)) then
      Throw (BadRequestException "Email and password are required")
    else if Nat.ltb (String.length (or_empty data.(dto_password))) 6 then
      Throw (BadRequestException "Password must be at least 6 characters")
    else if negb (emailRegex_test (or_empty data.(dto_email))) then
      Throw (BadRequestException "Invalid email format")
    else
      match MemDb.find_email (toLowerCase (or_empty data.(dto_email))) (MemDb.users s) with
      | Some _ =>
          Throw (ConflictException
                   "Email is already registered. Please use a different email.")
      | None =>
          Ok (sanitizeUser (user_to_obj
                (mkUser (MemDb.next_id s) (toLowerCase (or_empty data.(dto_email)))
                        (bcrypt_hash (or_empty data.(dto_password)) SALT_ROUNDS)
                        None (MemDb.clock s))))
      end.
Proof.
  unfold register, validateInput, bind, try_catch, ret, throw.
  destruct (negb (opt_truthy (dto_email data)) || negb (opt_truthy (dto_password data)));
    [reflexivity|].
  destruct (Nat.ltb (String.length (or_empty (dto_password data))) 6); [reflexivity|].
  destruct (negb (emailRegex_test (or_empty (dto_email data)))); [reflexivity|].
  simpl. unfold MemDb.create.
  destruct (MemDb.find_email _ (MemDb.users s)); reflexivity.
Qed.

(** C6 counterexample: ["a@.com"] has an ['@'], a ['.'] after it and no
    whitespace, yet registration rejects it as an invalid email. *)
Lemma C6_counterexample :
  spec_email_shape "a@.com" = true /\
  fst (register hash_ex (mkRegisterDto (Some "a@.com") (Some "secret12")) MemDb.empty)
    = Throw (BadRequestException "Invalid email format").
Proof. split; reflexivity. Qed.

(** ** Further properties of the code *)

(** *** The e-mail regex of [validateInput] *)

Lemma plain_not_at (c : ascii) : plain c = true -> Ascii.eqb c "@"%char = false.
Proof.
  unfold plain. intros H. apply andb_prop in H as [_ H]. apply negb_true_iff, H.
Qed.

Lemma all_plain_app (x y : string) : all_plain (x ++ y) = all_plain x && all_plain y.
Proof.
  induction x as [|c x IH]; simpl; [reflexivity|]. rewrite IH, andb_assoc. reflexivity.
Qed.

Lemma split_first_app (l r : string) :
  all_plain l = true -> split_first "@" (l ++ String "@" r) = Some (l, r).
Proof.
  induction l as [|c l IH]; simpl; [reflexivity|].
  intros H. apply andb_prop in H as [Hc Hl].
  rewrite (plain_not_at c Hc), (IH Hl). reflexivity.
Qed.

Lemma split_first_some (c : ascii) (s a b : string) :
  split_first c s = Some (a, b) -> s = a ++ String c b.
Proof.
  revert a b. induction s as [|d s IH]; simpl; [discriminate|]. intros a b.
  destruct (Ascii.eqb d c) eqn:E.
  - apply Ascii.eqb_eq in E; subst. intros H; inversion H; reflexivity.
  - destruct (split_first c s) as [[a' b']|]; [|discriminate].
    intros H; inversion H; subst. simpl. f_equal. apply IH; reflexivity.
Qed.

Lemma dot_not_last_cons (a : ascii) (r : string) :
  dot_not_last (String a r) = (Ascii.eqb a "."%char && str_truthy r) || dot_not_last r.
Proof.
  destruct a as [[] [] [] [] [] [] [] []]; destruct r; reflexivity.
Qed.

Lemma dot_not_last_spec (r : string) :
  dot_not_last r = true <-> exists r1 r2, r = r1 ++ String "." r2 /\ r2 <> "".
Proof.
  induction r as [|a r IH].
  - split; [discriminate|]. intros [[|? ?] [r2 [H _]]]; discriminate.
  - rewrite dot_not_last_cons. split.
    + intros H. apply orb_prop in H as [H|H].
      * apply andb_prop in H as [Ha Hr]. apply Ascii.eqb_eq in Ha; subst.
        exists "", r. split; [reflexivity|]. destruct r; [discriminate|]. discriminate.
      * apply IH in H as [r1 [r2 [-> Hr2]]]. exists (String a r1), r2. split; auto.
    + intros [[|b r1] [r2 [H Hr2]]]; simpl in H; inversion H; subst.
      * rewrite Ascii.eqb_refl. destruct r2; [contradiction|reflexivity].
      * apply orb_true_iff; right; apply IH; eauto.
Qed.

(** X1: [emailRegex_test] accepts exactly the strings
    [local ++ "@" ++ d1 ++ "." ++ d2] with [local], [d1], [d2] non-empty and
    made of characters other than whitespace and ['@'], which is the language
    of [/^[^\s@]+@[^\s@]+\.[^\s@]+$/]. *)
Theorem X1_emailRegex_language (s : string) :
  emailRegex_test s = true <->
  exists local d1 d2,
    s = local ++ String "@" (d1 ++ String "." d2) /\
    local <> "" /\ d1 <> "" /\ d2 <> "" /\
    all_plain local = true /\ all_plain d1 = true /\ all_plain d2 = true.
Proof.
  unfold emailRegex_test. split.
  - destruct (split_first "@" s) as [[a dom]|] eqn:Sp; [|discriminate].
    apply split_first_some in Sp as ->.
    intros H. apply andb_prop in H as [H Hdot].
    apply andb_prop in H as [H Hdom]. apply andb_prop in H as [Ha Hpa].
    destruct dom as [|c r]; [discriminate|].
    apply dot_not_last_spec in Hdot as [r1 [r2 [-> Hr2]]].
    simpl in Hdom. rewrite all_plain_app in Hdom. simpl in Hdom.
    apply andb_prop in Hdom as [Hc Hdom]. apply andb_prop in Hdom as [H1 H2].
    exists a, (String c r1), r2. repeat split; auto.
    + destruct a; [discriminate|]. discriminate.
    + discriminate.
    + simpl. rewrite Hc, H1. reflexivity.
  - intros [l [d1 [d2 [-> [Hl [H1 [H2 [Pl [P1 P2]]]]]]]]].
    rewrite (split_first_app _ _ Pl).
    rewrite Pl, all_plain_app. simpl. rewrite P1, P2.
    destruct l as [|a l]; [contradiction|].
    destruct d1 as [|c r1]; [contradiction|]. simpl.
    apply dot_not_last_spec. exists r1, d2. auto.
Qed.

(** *** Lemmas on [register], [toLowerCase] and the store *)

Lemma ascii_lower_idem (c : ascii) : ascii_lower (ascii_lower c) = ascii_lower c.
Proof. destruct c as [[] [] [] [] [] [] [] []]; reflexivity. Qed.

Lemma toLowerCase_idem (s : string) : toLowerCase (toLowerCase s) = toLowerCase s.
Proof. induction s as [|c s IH]; simpl; [reflexivity|]. rewrite ascii_lower_idem, IH. reflexivity. Qed.

(** A successful [register] on the in-memory store: the row it appended. *)
Lemma register_ok_inv (bcrypt_hash : string -> nat -> string)
    (s s' : MemDb.Db) (data : RegisterDto) obj :
  register bcrypt_hash data s = (Ok obj, s') ->
  exists E P, data.(dto_email) = Some E /\ data.(dto_password) = Some P /\
    emailRegex_test E = true /\ 6 <= String.length P /\
    MemDb.find_email (toLowerCase E) (MemDb.users s) = None /\
    s' = MemDb.mkDb (MemDb.users s ++
           [mkUser (MemDb.next_id s) (toLowerCase E) (bcrypt_hash P SALT_ROUNDS) None
                   (MemDb.clock s)])
           (S (MemDb.next_id s)) (MemDb.clock s) /\
    obj = sanitizeUser (user_to_obj
           (mkUser (MemDb.next_id s) (toLowerCase E) (bcrypt_hash P SALT_ROUNDS) None
                   (MemDb.clock s))).
Proof.
  unfold register, validateInput, bind, try_catch, ret, throw.
  destruct data as [[E|] [P|]]; simpl;
    [|rewrite orb_true_r; simpl; discriminate|discriminate|discriminate].
  destruct (str_truthy E) eqn:HE; [|discriminate].
  destruct (str_truthy P) eqn:HP; [|discriminate]. simpl.
  destruct (Nat.ltb (String.length P) 6) eqn:Hl; [discriminate|].
  destruct (emailRegex_test E) eqn:Hr; [|discriminate]. simpl.
  unfold MemDb.create.
  destruct (MemDb.find_email (toLowerCase E) (MemDb.users s)) eqn:F.
  - simpl. destruct (String.eqb "P2002" "P2002"); discriminate.
  - intros H; inversion H; subst. exists E, P.
    apply Nat.ltb_ge in Hl. repeat split; auto.
Qed.

Lemma find_email_none (e : string) (l : list User) :
  MemDb.find_email e l = None -> ~ In e (map email l).
Proof.
  unfold MemDb.find_email. intros F Hin. apply in_map_iff in Hin as [v [Hv Hin]].
  pose proof (find_none _ _ F v Hin) as C. simpl in C.
  rewrite Hv, String.eqb_refl in C. discriminate.
Qed.

Lemma find_email_app_none (e : string) (l : list User) (u : User) :
  MemDb.find_email e l = None -> u.(email) = e ->
  MemDb.find_email e (l ++ [u]) = Some u.
Proof.
  unfold MemDb.find_email. intros F He. induction l as [|v l IH]; simpl in *.
  - rewrite He, String.eqb_refl. reflexivity.
  - destruct (String.eqb (email v) e); [discriminate|]. exact (IH F).
Qed.

Lemma find_email_map (f : User -> User) (e : string) (l : list User) :
  (forall v, email (f v) = email v) ->
  MemDb.find_email e (map f l) = option_map f (MemDb.find_email e l).
Proof.
  unfold MemDb.find_email. intros Hf. induction l as [|v l IH]; [reflexivity|].
  simpl. rewrite Hf. destruct (String.eqb (email v) e); [reflexivity|exact IH].
Qed.

Lemma map_email_set_token_id (i : nat) (t : option string) (l : list User) :
  map email (map (MemDb.set_token_id i t) l) = map email l.
Proof.
  rewrite map_map. apply map_ext. intros v. unfold MemDb.set_token_id.
  destruct (Nat.eqb (id v) i); reflexivity.
Qed.

Lemma map_id_set_token_id (i : nat) (t : option string) (l : list User) :
  map id (map (MemDb.set_token_id i t) l) = map id l.
Proof.
  rewrite map_map. apply map_ext. intros v. unfold MemDb.set_token_id.
  destruct (Nat.eqb (id v) i); reflexivity.
Qed.

Lemma map_email_set_token_email (e : string) (t : option string) (l : list User) :
  map email (map (MemDb.set_token_email e t) l) = map email l.
Proof.
  rewrite map_map. apply map_ext. intros v. unfold MemDb.set_token_email.
  destruct (String.eqb (email v) e); reflexivity.
Qed.

Lemma map_id_set_token_email (e : string) (t : option string) (l : list User) :
  map id (map (MemDb.set_token_email e t) l) = map id l.
Proof.
  rewrite map_map. apply map_ext. intros v. unfold MemDb.set_token_email.
  destruct (String.eqb (email v) e); reflexivity.
Qed.

(** Rows are told apart by their [id]. *)
Lemma NoDup_id_same (l : list User) (u v : User) :
  NoDup (map id l) -> In u l -> In v l -> u.(id) = v.(id) -> u = v.
Proof.
  induction l as [|w l IH]; simpl; [contradiction|].
  intros Hnd Hu Hv Huv. inversion Hnd as [|? ? Hw Hnd']; subst.
  destruct Hu as [<-|Hu]; destruct Hv as [<-|Hv]; auto.
  - exfalso. apply Hw. rewrite Huv. apply in_map; exact Hv.
  - exfalso. apply Hw. rewrite <- Huv. apply in_map; exact Hu.
Qed.

(** A successful [login] on the in-memory store: the row it found. *)
Lemma login_ok_inv (bcrypt_compare : string -> string -> bool)
    (jwt_sign : JwtPayload -> string) (s s' : MemDb.Db) (e pw : string) r :
  login bcrypt_compare jwt_sign e pw s = (Ok r, s') ->
  exists u, MemDb.find_email (toLowerCase e) (MemDb.users s) = Some u /\
    bcrypt_compare pw u.(password) = true /\
    r = mkAuthResponse (jwt_sign (mkJwtPayload u.(id) u.(email))) /\
    s' = MemDb.mkDb (map (MemDb.set_token_id u.(id)
                            (Some (jwt_sign (mkJwtPayload u.(id) u.(email)))))
                         (MemDb.users s))
                    (MemDb.next_id s) (MemDb.clock s).
Proof.
  unfold login, validateUser, bind, ret, throw; simpl; unfold MemDb.findUnique.
  destruct (MemDb.find_email (toLowerCase e) (MemDb.users s)) as [u|] eqn:F;
    [|discriminate].
  destruct (bcrypt_compare pw (password u)) eqn:C; [|discriminate].
  unfold MemDb.update_by_id.
  destruct (MemDb.find_id (id u) (MemDb.users s)); [|discriminate].
  intros H; inversion H; subst. exists u. auto.
Qed.

Lemma register_fail_inv (bcrypt_hash : string -> nat -> string)
    (s s' : MemDb.Db) (data : RegisterDto) (x : Exn) :
  register bcrypt_hash data s = (Throw x, s') -> s' = s.
Proof.
  unfold register, validateInput, bind, try_catch, ret, throw.
  destruct (negb (opt_truthy (dto_email data)) || negb (opt_truthy (dto_password data)));
    [intros H; inversion H; reflexivity|].
  destruct (Nat.ltb (String.length (or_empty (dto_password data))) 6);
    [intros H; inversion H; reflexivity|].
  destruct (negb (emailRegex_test (or_empty (dto_email data))));
    [intros H; inversion H; reflexivity|].
  simpl. unfold MemDb.create.
  destruct (MemDb.find_email _ (MemDb.users s)); [|discriminate].
  simpl. destruct (String.eqb "P2002" "P2002"); intros H; inversion H; reflexivity.
Qed.

Lemma login_fail_inv (bcrypt_compare : string -> string -> bool)
    (jwt_sign : JwtPayload -> string) (s s' : MemDb.Db) (e pw : string) (x : Exn) :
  login bcrypt_compare jwt_sign e pw s = (Throw x, s') -> s' = s.
Proof.
  unfold login, validateUser, bind, ret, throw; simpl; unfold MemDb.findUnique.
  destruct (MemDb.find_email (toLowerCase e) (MemDb.users s)) as [u|];
    [|intros H; inversion H; reflexivity].
  destruct (bcrypt_compare pw (password u)); [|intros H; inversion H; reflexivity].
  unfold MemDb.update_by_id.
  destruct (MemDb.find_id (id u) (MemDb.users s)); [discriminate|].
  intros H; inversion H; reflexivity.
Qed.

Lemma logout_fail_inv (s s' : MemDb.Db) (e c : string) (x : Exn) :
  logout e c s = (Throw x, s') -> s' = s.
Proof.
  unfold logout, bind, ret, throw.
  destruct (negb (str_truthy e)); [intros H; inversion H; reflexivity|].
  simpl; unfold MemDb.findUnique.
  destruct (MemDb.find_email e (MemDb.users s)) eqn:F; [|intros H; inversion H; reflexivity].
  destruct (negb (String.eqb e c)); [intros H; inversion H; reflexivity|].
  simpl. unfold MemDb.update_by_email. rewrite F. discriminate.
Qed.

Lemma NoDup_snoc {A} (l : list A) (a : A) : NoDup l -> ~ In a l -> NoDup (l ++ [a]).
Proof.
  induction l as [|b l IH]; simpl; intros Hnd Hin.
  - constructor; [intros []|constructor].
  - inversion Hnd; subst. constructor.
    + rewrite in_app_iff. intros [H|[H|[]]]; [contradiction|]. apply Hin; left; auto.
    + apply IH; auto.
Qed.

Lemma wf_empty : wf MemDb.empty.
Proof. repeat split; constructor. Qed.

(** Rewriting rows without touching [email] or [id] keeps a store
    well-formed. *)
Lemma wf_map (f : User -> User) (s : MemDb.Db) :
  (forall v, email (f v) = email v) -> (forall v, id (f v) = id v) ->
  wf s -> wf (MemDb.mkDb (map f (MemDb.users s)) (MemDb.next_id s) (MemDb.clock s)).
Proof.
  intros Fe Fi [H1 [H2 [H3 H4]]]. unfold wf; simpl.
  rewrite !map_map.
  rewrite (map_ext (fun x => email (f x)) email Fe), (map_ext (fun x => id (f x)) id Fi).
  repeat split; auto; apply Forall_map; [revert H2|revert H4];
    apply Forall_impl; intros v; rewrite ?Fe, ?Fi; auto.
Qed.

Lemma email_set_token_id i t v : email (MemDb.set_token_id i t v) = email v.
Proof. unfold MemDb.set_token_id; destruct (Nat.eqb (id v) i); reflexivity. Qed.
Lemma id_set_token_id i t v : id (MemDb.set_token_id i t v) = id v.
Proof. unfold MemDb.set_token_id; destruct (Nat.eqb (id v) i); reflexivity. Qed.

(** *** Extra properties *)

(** X2: for any Prisma client, [login] depends on the email only through its
    lower-cased form. *)
Theorem X2_login_email_case (bcrypt_compare : string -> string -> bool)
    (jwt_sign : JwtPayload -> string) {S} `{Prisma S} (e1 e2 pw : string) (s : S)
    (Hcase : toLowerCase e1 = toLowerCase e2) :
  login bcrypt_compare jwt_sign e1 pw s = login bcrypt_compare jwt_sign e2 pw s.
Proof. unfold login, validateUser. rewrite Hcase. reflexivity. Qed.

Lemma X2_witness :
  toLowerCase "User@Example.com" = toLowerCase "user@EXAMPLE.COM" /\
  login cmp_ex sign_ex "User@Example.com" "secret12" store_ex
    = login cmp_ex sign_ex "user@EXAMPLE.COM" "secret12" store_ex.
Proof.
  split; [reflexivity|].
  exact (X2_login_email_case cmp_ex sign_ex "User@Example.com" "user@EXAMPLE.COM"
           "secret12" store_ex eq_refl).
Defined.

(** X3: after a successful registration, logging in with the same password
    and the email in any letter case succeeds (when bcrypt's compare accepts
    the password against its own hash), with a token for the new row's id
    and lower-cased email. *)
Theorem X3_register_then_login (bcrypt_hash : string -> nat -> string)
    (bcrypt_compare : string -> string -> bool) (jwt_sign : JwtPayload -> string)
    (s s' : MemDb.Db) (data : RegisterDto) obj (e : string)
    (Hreg : register bcrypt_hash data s = (Ok obj, s'))
    (Hbcrypt : bcrypt_compare (or_empty data.(dto_password))
                 (bcrypt_hash (or_empty data.(dto_password)) SALT_ROUNDS) = true)
    (Hcase : toLowerCase e = toLowerCase (or_empty data.(dto_email))) :
  fst (login bcrypt_compare jwt_sign e (or_empty data.(dto_password)) s')
  = Ok (mkAuthResponse (jwt_sign (mkJwtPayload (MemDb.next_id s)
                                    (toLowerCase (or_empty data.(dto_email)))))).
Proof.
  destruct (register_ok_inv _ _ _ _ _ Hreg) as [E [P [HE [HP [_ [_ [F [-> _]]]]]]]].
  rewrite HE, HP in *. simpl in *.
  unfold login, validateUser, bind, ret; simpl; unfold MemDb.findUnique; simpl.
  rewrite Hcase, (find_email_app_none (toLowerCase E) (MemDb.users s)
    (mkUser (MemDb.next_id s) (toLowerCase E) (bcrypt_hash P SALT_ROUNDS) None
            (MemDb.clock s)) F eq_refl).
  simpl. rewrite Hbcrypt.
  unfold MemDb.update_by_id; simpl.
  destruct (find_id_in (MemDb.users s ++
              [mkUser (MemDb.next_id s) (toLowerCase E) (bcrypt_hash P SALT_ROUNDS) None
                      (MemDb.clock s)])
              (mkUser (MemDb.next_id s) (toLowerCase E) (bcrypt_hash P SALT_ROUNDS) None
                      (MemDb.clock s))) as [v Hv];
    [apply in_or_app; right; left; reflexivity|].
  simpl in Hv. rewrite Hv. reflexivity.
Qed.

Lemma X3_witness :
  register hash_ex (mkRegisterDto (Some "User@Example.com") (Some "secret12")) MemDb.empty
    = (Ok [("id", JNum 1); ("email", JStr "user@example.com");
           ("currentToken", JNull); ("createdAt", JNum 0)],
       MemDb.mkDb [mkUser 1 "user@example.com" "secret12" None 0] 2 0) /\
  fst (login cmp_ex sign_ex "USER@example.COM" "secret12"
         (MemDb.mkDb [mkUser 1 "user@example.com" "secret12" None 0] 2 0))
    = Ok (mkAuthResponse (sign_ex (mkJwtPayload 1 "user@example.com"))).
Proof.
  split; [reflexivity|].
  exact (X3_register_then_login hash_ex cmp_ex sign_ex MemDb.empty _
           (mkRegisterDto (Some "User@Example.com") (Some "secret12")) _
           "USER@example.COM" eq_refl eq_refl eq_refl).
Defined.

(** X4: once an email is registered, registering it again in any letter
    case (with input that passes validation) fails with Conflict and leaves
    the store as it was. *)
Theorem X4_register_duplicate (bcrypt_hash : string -> nat -> string)
    (s s' : MemDb.Db) (data data' : RegisterDto) obj
    (Hreg : register bcrypt_hash data s = (Ok obj, s'))
    (Hval : validateInput (S := MemDb.Db) data' s' = (Ok tt, s'))
    (Hcase : toLowerCase (or_empty data'.(dto_email))
             = toLowerCase (or_empty data.(dto_email))) :
  register bcrypt_hash data' s' =
    (Throw (ConflictException
              "Email is already registered. Please use a different email."), s').
Proof.
  destruct (register_ok_inv _ _ _ _ _ Hreg) as [E [P [HE [HP [_ [_ [F [Hs _]]]]]]]].
  rewrite HE in Hcase; simpl in Hcase.
  unfold register. unfold bind at 1. rewrite Hval.
  unfold try_catch, bind, ret. simpl. unfold MemDb.create.
  rewrite Hcase, Hs. simpl.
  rewrite (find_email_app_none (toLowerCase E) (MemDb.users s)
    (mkUser (MemDb.next_id s) (toLowerCase E) (bcrypt_hash P SALT_ROUNDS) None
            (MemDb.clock s)) F eq_refl).
  reflexivity.
Qed.

Lemma X4_witness :
  register hash_ex (mkRegisterDto (Some "User@Example.com") (Some "secret12")) MemDb.empty
    = (Ok [("id", JNum 1); ("email", JStr "user@example.com");
           ("currentToken", JNull); ("createdAt", JNum 0)], store_ex) /\
  validateInput (S := MemDb.Db) (mkRegisterDto (Some "USER@example.com") (Some "another1"))
    store_ex = (Ok tt, store_ex) /\
  register hash_ex (mkRegisterDto (Some "USER@example.com") (Some "another1")) store_ex
    = (Throw (ConflictException
                "Email is already registered. Please use a different email."), store_ex).
Proof.
  refine (conj eq_refl (conj eq_refl _)).
  exact (X4_register_duplicate hash_ex MemDb.empty store_ex
           (mkRegisterDto (Some "User@Example.com") (Some "secret12"))
           (mkRegisterDto (Some "USER@example.com") (Some "another1")) _
           eq_refl eq_refl eq_refl).
Defined.

(** X5: for any Prisma client, when validation passes and [create] throws,
    [register] throws Conflict for Prisma's P2002 and rethrows any other
    error unchanged, with the store [create] left. *)
Theorem X5_register_create_error (bcrypt_hash : string -> nat -> string)
    {S} `{Prisma S} (s s1 : S) (E P : string) (x : Exn)
    (Hval : validateInput (mkRegisterDto (Some E) (Some P)) s = (Ok tt, s))
    (Hcreate : user_create (toLowerCase E) (bcrypt_hash P SALT_ROUNDS) s = (Throw x, s1)) :
  register bcrypt_hash (mkRegisterDto (Some E) (Some P)) s =
    (Throw (match x with
            | PrismaError c =>
                if String.eqb c "P2002"
                then ConflictException
                       "Email is already registered. Please use a different email."
                else x
            | _ => x
            end), s1).
Proof.
  unfold register. unfold bind at 1. rewrite Hval.
  unfold try_catch, bind. simpl. rewrite Hcreate.
  destruct x as [m|m|m|m|c]; try reflexivity.
  unfold handlePrismaError. destruct (String.eqb c "P2002"); reflexivity.
Qed.

Lemma X5_witness :
  validateInput (mkRegisterDto (Some "user@example.com") (Some "secret12"))
    (ReadOnlyDb.mkRoDb store_ex) = (Ok tt, ReadOnlyDb.mkRoDb store_ex) /\
  register hash_ex (mkRegisterDto (Some "user@example.com") (Some "secret12"))
    (ReadOnlyDb.mkRoDb store_ex)
    = (Throw (PrismaError "P1001"), ReadOnlyDb.mkRoDb store_ex).
Proof.
  split; [reflexivity|].
  exact (X5_register_create_error hash_ex (ReadOnlyDb.mkRoDb store_ex)
           (ReadOnlyDb.mkRoDb store_ex) "user@example.com" "secret12"
           (PrismaError "P1001") eq_refl eq_refl).
Defined.

(** X6: a [register] that throws leaves the in-memory store unchanged. *)
Theorem X6_register_failure_no_write (bcrypt_hash : string -> nat -> string)
    (s s' : MemDb.Db) (data : RegisterDto) (x : Exn)
    (Hfail : register bcrypt_hash data s = (Throw x, s')) : s' = s.
Proof. exact (register_fail_inv _ _ _ _ _ Hfail). Qed.

Lemma X6_witness :
  register hash_ex (mkRegisterDto (Some "user@example.com") (Some "123")) store_ex
    = (Throw (BadRequestException "Password must be at least 6 characters"), store_ex) /\
  store_ex = store_ex.
Proof.
  split; [reflexivity|].
  exact (X6_register_failure_no_write hash_ex store_ex store_ex
           (mkRegisterDto (Some "user@example.com") (Some "123")) _ eq_refl).
Defined.

(** X7: a [login] that throws leaves the in-memory store unchanged. *)
Theorem X7_login_failure_no_write (bcrypt_compare : string -> string -> bool)
    (jwt_sign : JwtPayload -> string) (s s' : MemDb.Db) (e pw : string) (x : Exn)
    (Hfail : login bcrypt_compare jwt_sign e pw s = (Throw x, s')) : s' = s.
Proof. exact (login_fail_inv _ _ _ _ _ _ _ Hfail). Qed.

Lemma X7_witness :
  login cmp_ex sign_ex "user@example.com" "wrong-pass" store_ex
    = (Throw (UnauthorizedException "Invalid email or password"), store_ex) /\
  store_ex = store_ex.
Proof.
  split; [reflexivity|].
  exact (X7_login_failure_no_write cmp_ex sign_ex store_ex store_ex
           "user@example.com" "wrong-pass" _ eq_refl).
Defined.

(** X8: a [logout] that throws (missing email, unknown email, or another
    user's email) leaves the in-memory store unchanged. *)
Theorem X8_logout_failure_no_write (s s' : MemDb.Db) (e loggedIn : string) (x : Exn)
    (Hfail : logout e loggedIn s = (Throw x, s')) : s' = s.
Proof. exact (logout_fail_inv _ _ _ _ _ Hfail). Qed.

Lemma X8_witness :
  let s := MemDb.mkDb [mkUser 1 "a@example.com" "h1" (Some "t1") 0;
                       mkUser 2 "b@example.com" "h2" (Some "t2") 0] 3 0 in
  logout "b@example.com" "a@example.com" s
    = (Throw (ForbiddenException "You can only logout your own account."), s) /\
  s = s.
Proof.
  intros s. split; [reflexivity|].
  exact (X8_logout_failure_no_write s s "b@example.com" "a@example.com" _ eq_refl).
Defined.

(** X9: [register] keeps the in-memory store well-formed: emails unique and
    lower-cased, ids distinct and below the id counter. *)
Theorem X9_register_preserves_wf (bcrypt_hash : string -> nat -> string)
    (s s' : MemDb.Db) (data : RegisterDto) r
    (Hwf : wf s) (Hrun : register bcrypt_hash data s = (r, s')) : wf s'.
Proof.
  destruct r as [obj|x]; [|rewrite (register_fail_inv _ _ _ _ _ Hrun); exact Hwf].
  destruct (register_ok_inv _ _ _ _ _ Hrun) as [E [P [_ [_ [_ [_ [F [-> _]]]]]]]].
  destruct Hwf as [H1 [H2 [H3 H4]]]. unfold wf; simpl.
  rewrite !map_app. simpl. repeat split.
  - apply NoDup_snoc; [exact H1|]. apply find_email_none; exact F.
  - apply Forall_app; split; [exact H2|]. constructor; [apply toLowerCase_idem|constructor].
  - apply NoDup_snoc; [exact H3|]. intros Hin. apply in_map_iff in Hin as [v [Hv Hin]].
    rewrite Forall_forall in H4. specialize (H4 v Hin). lia.
  - apply Forall_app; split.
    + revert H4; apply Forall_impl; intros v; lia.
    + constructor; [simpl; lia|constructor].
Qed.

Lemma X9_witness :
  wf MemDb.empty /\
  register hash_ex (mkRegisterDto (Some "User@Example.com") (Some "secret12")) MemDb.empty
    = (Ok [("id", JNum 1); ("email", JStr "user@example.com");
           ("currentToken", JNull); ("createdAt", JNum 0)], store_ex) /\
  wf store_ex.
Proof.
  refine (conj wf_empty (conj eq_refl _)).
  exact (X9_register_preserves_wf hash_ex MemDb.empty store_ex
           (mkRegisterDto (Some "User@Example.com") (Some "secret12")) _
           wf_empty eq_refl).
Defined.

Lemma wf_single (u : User) (n c : nat) :
  toLowerCase u.(email) = u.(email) -> (u.(id) < n)%nat ->
  wf (MemDb.mkDb [u] n c).
Proof.
  intros Hl Hi. unfold wf; simpl.
  repeat split; repeat constructor; simpl; auto.
Qed.

(** X10: [login] keeps the in-memory store well-formed. *)
Theorem X10_login_preserves_wf (bcrypt_compare : string -> string -> bool)
    (jwt_sign : JwtPayload -> string) (s s' : MemDb.Db) (e pw : string) r
    (Hwf : wf s) (Hrun : login bcrypt_compare jwt_sign e pw s = (r, s')) : wf s'.
Proof.
  destruct r as [a|x]; [|rewrite (login_fail_inv _ _ _ _ _ _ _ Hrun); exact Hwf].
  destruct (login_ok_inv _ _ _ _ _ _ _ Hrun) as [u [_ [_ [_ ->]]]].
  apply wf_map; [apply email_set_token_id|apply id_set_token_id|exact Hwf].
Qed.

Lemma X10_witness :
  wf store_ex /\
  login cmp_ex sign_ex "user@example.com" "secret12" store_ex
    = (Ok (mkAuthResponse "x|user@example.com"),
       MemDb.mkDb [mkUser 1 "user@example.com" "secret12" (Some "x|user@example.com") 0] 2 0) /\
  wf (MemDb.mkDb [mkUser 1 "user@example.com" "secret12" (Some "x|user@example.com") 0] 2 0).
Proof.
  assert (W : wf store_ex) by (apply wf_single; [reflexivity|cbn; lia]).
  refine (conj W (conj eq_refl _)).
  exact (X10_login_preserves_wf cmp_ex sign_ex store_ex _ "user@example.com" "secret12" _
           W eq_refl).
Defined.



(** X12: on a store with distinct ids, a successful [login] makes the row of
    the lower-cased email carry the issued token (whatever it carried
    before), and every lookup by another email returns what it returned
    before. *)
Theorem X12_login_lookup (bcrypt_compare : string -> string -> bool)
    (jwt_sign : JwtPayload -> string) (s s' : MemDb.Db) (e pw : string) r
    (Hids : NoDup (map id (MemDb.users s)))
    (Hrun : login bcrypt_compare jwt_sign e pw s = (Ok r, s')) :
  (exists u, MemDb.find_email (toLowerCase e) (MemDb.users s) = Some u /\
     MemDb.find_email (toLowerCase e) (MemDb.users s')
       = Some (with_token u (Some r.(access_token)))) /\
  (forall e', e' <> toLowerCase e ->
     MemDb.find_email e' (MemDb.users s') = MemDb.find_email e' (MemDb.users s)).
Proof.
  destruct (login_ok_inv _ _ _ _ _ _ _ Hrun) as [u [F [_ [-> ->]]]]; simpl.
  destruct (find_email_spec _ _ _ F) as [Hin He].
  split.
  - exists u. split; [exact F|].
    rewrite find_email_map by apply email_set_token_id. rewrite F. simpl.
    unfold MemDb.set_token_id. rewrite Nat.eqb_refl. reflexivity.
  - intros e' Hne.
    rewrite find_email_map by apply email_set_token_id.
    destruct (MemDb.find_email e' (MemDb.users s)) as [v|] eqn:Fv; [|reflexivity].
    destruct (find_email_spec _ _ _ Fv) as [Hinv Hev]. simpl.
    unfold MemDb.set_token_id. destruct (Nat.eqb (id v) (id u)) eqn:Ei; [|reflexivity].
    apply Nat.eqb_eq in Ei.
    rewrite (NoDup_id_same _ _ _ Hids Hinv Hin Ei) in Hev. congruence.
Qed.

Lemma X12_witness :
  let s := MemDb.mkDb [mkUser 1 "a@example.com" "pa" (Some "old") 0;
                       mkUser 2 "b@example.com" "pb" (Some "tb") 0] 3 0 in
  NoDup (map id (MemDb.users s)) /\
  login cmp_ex sign_ex "A@example.com" "pa" s
    = (Ok (mkAuthResponse "x|a@example.com"),
       MemDb.mkDb [mkUser 1 "a@example.com" "pa" (Some "x|a@example.com") 0;
                   mkUser 2 "b@example.com" "pb" (Some "tb") 0] 3 0) /\
  MemDb.find_email "b@example.com"
    (MemDb.users (MemDb.mkDb [mkUser 1 "a@example.com" "pa" (Some "x|a@example.com") 0;
                              mkUser 2 "b@example.com" "pb" (Some "tb") 0] 3 0))
    = MemDb.find_email "b@example.com" (MemDb.users s).
Proof.
  intros s.
  assert (N : NoDup (map id (MemDb.users s))).
  { simpl. constructor; [simpl; intros [H|[]]; discriminate|].
    constructor; [intros []|constructor]. }
  refine (conj N (conj eq_refl _)).
  destruct (X12_login_lookup cmp_ex sign_ex s _ "A@example.com" "pa" _ N eq_refl)
    as [_ H]. apply H. discriminate.
Defined.

(** X13: for any Prisma client, when the body email and the token's email
    are both present, [AuthController.logout] answers "User with email ...
    logged out successfully" exactly when [AuthService.logout] returns, and
    otherwise throws the service's error, with the service's store. *)
Theorem X13_controller_logout_delegates {S} `{Prisma S}
    (e : string) (u : ValidatedUser) (s : S)
    (He : str_truthy e = true) (Hu : str_truthy u.(v_email) = true) :
  controller_logout (Some e) (Some u) s =
    match logout e u.(v_email) s with
    | (Ok _, s') => (Ok (mkMessage ("User with email " ++ e ++ " logged out successfully")), s')
    | (Throw x, s') => (Throw x, s')
    end.
Proof.
  unfold controller_logout; simpl. rewrite He, Hu. simpl. unfold bind.
  destruct (logout e (v_email u) s) as [[r|x] s'] eqn:E; [|reflexivity].
  rewrite (logout_result_true _ _ _ _ _ E). reflexivity.
Qed.

Lemma X13_witness :
  str_truthy "b@example.com" = true /\
  str_truthy (v_email (mkValidatedUser 1 "a@example.com")) = true /\
  controller_logout (Some "b@example.com") (Some (mkValidatedUser 1 "a@example.com")) store_ex
    = (Throw (BadRequestException "Enter a valid email."), store_ex).
Proof.
  refine (conj eq_refl (conj eq_refl _)).
  rewrite (X13_controller_logout_delegates "b@example.com"
             (mkValidatedUser 1 "a@example.com") store_ex eq_refl eq_refl).
  reflexivity.
Defined.

(** X15: for any Prisma client, whatever row [create] returns, a successful
    [register] returns an object with no [password] key. *)
Theorem X15_register_no_password {S} `{Prisma S}
    (bcrypt_hash : string -> nat -> string) (data : RegisterDto) (s s' : S) obj
    (Hreg : register bcrypt_hash data s = (Ok obj, s')) :
  ~ In "password" (map fst obj).
Proof.
  revert Hreg. unfold register, bind, try_catch, ret.
  destruct (validateInput data s) as [[[]|x] s1]; [|discriminate].
  destruct (user_create _ _ s1) as [[u|x] s2].
  - intros Hr; inversion Hr; subst. simpl.
    intros [C|[C|[C|[C|[]]]]]; discriminate.
  - unfold handlePrismaError, throw. destruct x; try discriminate.
    destruct (String.eqb code "P2002"); discriminate.
Qed.

Lemma X15_witness :
  register hash_ex (mkRegisterDto (Some "user@example.com") (Some "secret12")) MemDb.empty
    = (Ok [("id", JNum 1); ("email", JStr "user@example.com");
           ("currentToken", JNull); ("createdAt", JNum 0)], store_ex) /\
  ~ In "password" (map fst [("id", JNum 1); ("email", JStr "user@example.com");
                            ("currentToken", JNull); ("createdAt", JNum 0)]).
Proof.
  split; [reflexivity|].
  exact (X15_register_no_password hash_ex
           (mkRegisterDto (Some "user@example.com") (Some "secret12")) MemDb.empty
           store_ex _ eq_refl).
Defined.
